(** * GetSuite: a mock NetSuite record service

    A shallow embedding of [getsuiteAPI.py]: the two tables kept by the
    SQLite store, the pydantic request schemas, the SQLAlchemy session
    operations the handlers use and the eight request handlers, followed by
    the properties of the handlers.

    Conventions.
    - A table is a finite map from the primary key to the row; a row is a
      record with one field per column, every column nullable as declared.
    - A handler is a computation in the monad [M]: it reads and writes the
      committed store and either returns a value or raises an exception.
    - The wall clock is a parameter [clock] of the handlers that read it.
    - [simulate_latency] only sleeps; it is kept as a step without effect.
    - A store is judged by what SQLite can hold: its keys are 64-bit
      integers. The handlers are stated on every store of the model; where a
      key is looked up and not found, its range decides the answer. *)

From Stdlib Require Import ZArith String List PrimFloat.
From stdpp Require Import base option list sorting gmap strings pretty.

Local Open Scope string_scope.
Local Open Scope Z_scope.

(** ** Python values and calls *)

(** The values that travel through [model_dump] dictionaries, keyword
    arguments and request bodies. *)
Inductive PyVal :=
| PyNone
| PyInt (n : Z)
| PyFloat (x : float)
| PyStr (s : string).

(** A dictionary with its insertion order, as [dict.items()] yields it. *)
Definition PyDict := list (string * PyVal).

Definition keys (d : PyDict) : list string := d.*1.

(** The exceptions that can leave a handler. [IntegrityError] names the
    constraint that failed, [StaleDataError] the table whose row was gone;
    [OverflowError] is raised when an integer that does not fit in 64 bits is
    bound as a query parameter, [ResponseValidationError] when the value a
    handler returns does not fit the route's response model. *)
Inductive Exception :=
| HTTPException (status_code : Z) (detail : string)
| TypeError (msg : string)
| IntegrityError (constraint : string)
| StaleDataError (table : string)
| OverflowError
| ResponseValidationError.

(** The integers SQLite stores and a query binds: 64 bits, signed. *)
Definition int64 (k : Z) : Prop := - 2 ^ 63 ≤ k < 2 ^ 63.

Global Instance int64_dec k : Decision (int64 k).
Proof. unfold int64. apply _. Defined.

Inductive Result (A : Type) :=
| Ok (a : A)
| Raise (e : Exception).
Arguments Ok {A} a.
Arguments Raise {A} e.

(** The keyword arguments of a call that unpacks the dictionary [star] and
    also names the keywords [explicit]. A key that is given twice makes the
    call raise [TypeError] before the callee runs; the message is kept from
    "got" on, after the name of the callee. *)
Definition call_kwargs (star explicit : PyDict) : Result PyDict :=
  match List.find (λ k, bool_decide (k ∈ keys star)) (keys explicit) with
  | Some k => Raise (TypeError ("got multiple values for keyword argument '" +:+ k +:+ "'"))
  | None => Ok (star ++ explicit)%list
  end.

(** [str(n)] for an integer, and for the [None] of an unset attribute. *)
Definition py_str_int (n : option Z) : string :=
  match n with
  | Some k => pretty k
  | None => "None"
  end.

(** [a or b] on an optional string: [None] and [""] are falsy. *)
Definition py_or (a : option string) (b : string) : string :=
  match a with
  | Some s => if bool_decide (s = "") then b else s
  | None => b
  end.

(** Binding a Python value to a [String], [Integer] or [Float] column.
    [None] binds NULL. The schemas type every field like its column, so a
    value of another type never reaches a column; it is read as NULL here. *)
Definition to_String (v : PyVal) : option string :=
  match v with PyStr s => Some s | _ => None end.
Definition to_Integer (v : PyVal) : option Z :=
  match v with PyInt n => Some n | _ => None end.
Definition to_Float (v : PyVal) : option float :=
  match v with PyFloat x => Some x | _ => None end.

(** ** The clock *)

(** [time.strftime(fmt)] reads the wall clock; a clock maps a format to the
    rendering of the current time in it. *)
Definition Clock := string → string.

Definition strftime (clock : Clock) (fmt : string) : string := clock fmt.

(** ** SQLAlchemy ORM models (database tables) *)

Module DBCustomer.
Record t := mk {
  id : option Z;
  entityId : option string;
  companyName : option string;
  email : option string;
  status : option string;
  dateCreated : option string;
  lastUpdated : option string
}.

(** A transient object: no attribute set yet. *)
Definition blank : t := mk None None None None None None None.

Definition set_id v c :=
  mk v (entityId c) (companyName c) (email c) (status c) (dateCreated c) (lastUpdated c).
Definition set_entityId v c :=
  mk (id c) v (companyName c) (email c) (status c) (dateCreated c) (lastUpdated c).
Definition set_companyName v c :=
  mk (id c) (entityId c) v (email c) (status c) (dateCreated c) (lastUpdated c).
Definition set_email v c :=
  mk (id c) (entityId c) (companyName c) v (status c) (dateCreated c) (lastUpdated c).
Definition set_status v c :=
  mk (id c) (entityId c) (companyName c) (email c) v (dateCreated c) (lastUpdated c).
Definition set_dateCreated v c :=
  mk (id c) (entityId c) (companyName c) (email c) (status c) v (lastUpdated c).
Definition set_lastUpdated v c :=
  mk (id c) (entityId c) (companyName c) (email c) (status c) (dateCreated c) v.

Definition columns : list string :=
  ["id"; "entityId"; "companyName"; "email"; "status"; "dateCreated"; "lastUpdated"].

(** [setattr(c, key, value)]. A name that is not a column becomes a plain
    attribute of the Python object, which the row does not hold. *)
Definition setattr (c : t) (key : string) (value : PyVal) : t :=
  if bool_decide (key = "id") then set_id (to_Integer value) c
  else if bool_decide (key = "entityId") then set_entityId (to_String value) c
  else if bool_decide (key = "companyName") then set_companyName (to_String value) c
  else if bool_decide (key = "email") then set_email (to_String value) c
  else if bool_decide (key = "status") then set_status (to_String value) c
  else if bool_decide (key = "dateCreated") then set_dateCreated (to_String value) c
  else if bool_decide (key = "lastUpdated") then set_lastUpdated (to_String value) c
  else c.

(** The declarative constructor, called with keyword arguments: it sets
    one attribute per keyword and rejects a keyword that is not an
    attribute of the class. *)
Fixpoint init_from (c : t) (kwargs : PyDict) : Result t :=
  match kwargs with
  | [] => Ok c
  | (key, value) :: rest =>
      if bool_decide (key ∈ columns) then init_from (setattr c key value) rest
      else Raise (TypeError ("'" +:+ key +:+ "' is an invalid keyword argument for DBCustomer"))
  end.

Definition init (kwargs : PyDict) : Result t := init_from blank kwargs.
End DBCustomer.

Module DBSalesOrder.
Record t := mk {
  id : option Z;
  tranId : option string;
  entity : option Z;
  total : option float;
  status : option string;
  trandate : option string;
  lastUpdated : option string
}.

Definition blank : t := mk None None None None None None None.

Definition set_id v o :=
  mk v (tranId o) (entity o) (total o) (status o) (trandate o) (lastUpdated o).
Definition set_tranId v o :=
  mk (id o) v (entity o) (total o) (status o) (trandate o) (lastUpdated o).
Definition set_entity v o :=
  mk (id o) (tranId o) v (total o) (status o) (trandate o) (lastUpdated o).
Definition set_total v o :=
  mk (id o) (tranId o) (entity o) v (status o) (trandate o) (lastUpdated o).
Definition set_status v o :=
  mk (id o) (tranId o) (entity o) (total o) v (trandate o) (lastUpdated o).
Definition set_trandate v o :=
  mk (id o) (tranId o) (entity o) (total o) (status o) v (lastUpdated o).
Definition set_lastUpdated v o :=
  mk (id o) (tranId o) (entity o) (total o) (status o) (trandate o) v.

Definition columns : list string :=
  ["id"; "tranId"; "entity"; "total"; "status"; "trandate"; "lastUpdated"].

Definition setattr (o : t) (key : string) (value : PyVal) : t :=
  if bool_decide (key = "id") then set_id (to_Integer value) o
  else if bool_decide (key = "tranId") then set_tranId (to_String value) o
  else if bool_decide (key = "entity") then set_entity (to_Integer value) o
  else if bool_decide (key = "total") then set_total (to_Float value) o
  else if bool_decide (key = "status") then set_status (to_String value) o
  else if bool_decide (key = "trandate") then set_trandate (to_String value) o
  else if bool_decide (key = "lastUpdated") then set_lastUpdated (to_String value) o
  else o.

Fixpoint init_from (o : t) (kwargs : PyDict) : Result t :=
  match kwargs with
  | [] => Ok o
  | (key, value) :: rest =>
      if bool_decide (key ∈ columns) then init_from (setattr o key value) rest
      else Raise (TypeError ("'" +:+ key +:+ "' is an invalid keyword argument for DBSalesOrder"))
  end.

Definition init (kwargs : PyDict) : Result t := init_from blank kwargs.
End DBSalesOrder.

(** ** Pydantic schemas *)

Module CustomerBase.
(** [model_fields_set] holds the names of the fields the caller gave;
    [status] holds the default ["Active"] when the caller gave none. *)
Record t := mk {
  companyName : string;
  email : string;
  status : string;
  model_fields_set : list string
}.

Definition model_dump (c : t) : PyDict :=
  [("companyName", PyStr (companyName c));
   ("email", PyStr (email c));
   ("status", PyStr (status c))].

(** [model_dump(exclude_unset=True)]: the fields the caller gave only. *)
Definition model_dump_exclude_unset (c : t) : PyDict :=
  List.filter (λ kv, bool_decide (kv.1 ∈ model_fields_set c)) (model_dump c).

(** Validation of a request body against the schema: [companyName] and
    [email] are required strings, [status] is a string with a default;
    keys that are not fields are ignored. [None] is a rejected body. *)
Definition model_validate (body : gmap string PyVal) : option t :=
  match body !! "companyName", body !! "email" with
  | Some (PyStr name), Some (PyStr mail) =>
      match body !! "status" with
      | None => Some (mk name mail "Active" ["companyName"; "email"])
      | Some (PyStr st) => Some (mk name mail st ["companyName"; "email"; "status"])
      | Some _ => None
      end
  | _, _ => None
  end.
End CustomerBase.

Module SalesOrderBase.
Record t := mk {
  entity : Z;
  total : float;
  status : string;
  trandate : option string
}.

Definition model_dump (o : t) : PyDict :=
  [("entity", PyInt (entity o));
   ("total", PyFloat (total o));
   ("status", PyStr (status o));
   ("trandate", match trandate o with Some d => PyStr d | None => PyNone end)].
End SalesOrderBase.

(** ** The store *)

(** What the session needs to know of a mapped class: its table name, its
    primary key and its one [unique=True] column. *)
Class Model (R : Type) := {
  tablename : string;
  pk : R → option Z;
  set_pk : option Z → R → R;
  unique_name : string;
  unique_col : R → option string
}.

Global Instance DBCustomer_model : Model DBCustomer.t := {|
  tablename := "customers";
  pk := DBCustomer.id;
  set_pk := DBCustomer.set_id;
  unique_name := "entityId";
  unique_col := DBCustomer.entityId
|}.

Global Instance DBSalesOrder_model : Model DBSalesOrder.t := {|
  tablename := "sales_orders";
  pk := DBSalesOrder.id;
  set_pk := DBSalesOrder.set_id;
  unique_name := "tranId";
  unique_col := DBSalesOrder.tranId
|}.

Section Table.
Context {R : Type} `{Model R}.

(** The key SQLite gives a row inserted without one: 1 in an empty table,
    one more than the largest key in use otherwise. At the largest 64-bit
    key SQLite picks an unused key at random instead: a statement that names
    the key a row is given assumes [int64 (next_rowid tbl)]. *)
Definition next_rowid (tbl : gmap Z R) : Z :=
  match (map_to_list tbl).*1 with
  | [] => 1
  | k :: ks => foldr Z.max k ks + 1
  end.

(** The query for the row whose key is [k], with [k] bound as a parameter.
    An integer outside the 64-bit range cannot be bound: the query raises
    [OverflowError]. A key the table holds is within the range, the table
    can hold no other, so the range decides the answer where no row is
    found. *)
Definition table_first (tbl : gmap Z R) (k : Z) : Result (option R) :=
  match tbl !! k with
  | Some r => Ok (Some r)
  | None => if bool_decide (int64 k) then Ok None else Raise OverflowError
  end.

(** The rows of the table as a scan yields them: by ascending key. *)
Definition by_key (x y : Z * R) : Prop := x.1 ≤ y.1.

Global Instance by_key_dec x y : Decision (by_key x y).
Proof. unfold by_key. apply _. Defined.

Definition table_all (tbl : gmap Z R) : list R :=
  (merge_sort by_key (map_to_list tbl)).*2.

(** The unique index: a value that is not NULL may be held by one row. *)
Definition unique_taken (tbl : gmap Z R) (k : Z) (v : option string) : bool :=
  bool_decide (is_Some v ∧ map_Exists (λ j r, j ≠ k ∧ unique_col r = v) tbl).

Definition constraint_failed (col : string) : Exception :=
  IntegrityError (tablename +:+ "." +:+ col).

Definition stale : Exception := StaleDataError tablename.

(** INSERT of a pending object; the result is the object as refreshed from
    the table, with its key. *)
Definition table_insert (tbl : gmap Z R) (r : R) : Result (R * gmap Z R) :=
  let k := default (next_rowid tbl) (pk r) in
  if bool_decide (is_Some (tbl !! k)) then Raise (constraint_failed "id")
  else if unique_taken tbl k (unique_col r) then Raise (constraint_failed unique_name)
  else let row := set_pk (Some k) r in Ok (row, <[k := row]> tbl).

(** UPDATE of the row a modified object was loaded from. The unique index
    is consulted when the unique column is among the modified ones. *)
Definition table_update (tbl : gmap Z R) (r : R) : Result (gmap Z R) :=
  match pk r with
  | Some k =>
      match tbl !! k with
      | Some old =>
          if bool_decide (unique_col r ≠ unique_col old)
             && unique_taken tbl k (unique_col r)
          then Raise (constraint_failed unique_name)
          else Ok (<[k := r]> tbl)
      | None => Raise stale
      end
  | None => Raise stale
  end.

(** DELETE of the row an object was loaded from. *)
Definition table_delete (tbl : gmap Z R) (r : R) : Result (gmap Z R) :=
  match pk r with
  | Some k =>
      if bool_decide (is_Some (tbl !! k)) then Ok (delete k tbl)
      else Raise stale
  | None => Raise stale
  end.

(** Every row sits under its own primary key. *)
Definition keyed (tbl : gmap Z R) : Prop :=
  map_Forall (λ k r, pk r = Some k) tbl.
End Table.

Record Store := mkStore {
  customers : gmap Z DBCustomer.t;
  sales_orders : gmap Z DBSalesOrder.t
}.

Definition empty_store : Store := mkStore ∅ ∅.

(** ** Handlers as computations over the store *)

Definition M (A : Type) : Type := Store → Result A * Store.

Global Instance M_ret : MRet M := λ A a db, (Ok a, db).
Global Instance M_bind : MBind M := λ A B k m db,
  match m db with
  | (Ok a, db') => k a db'
  | (Raise e, db') => (Raise e, db')
  end.

Definition raise {A} (e : Exception) : M A := λ db, (Raise e, db).

(** A step that can raise but does not touch the store. *)
Definition lift {A} (r : Result A) : M A := λ db, (r, db).

Module db.
(** [db.query(DBCustomer).filter(DBCustomer.id == k).first()], answered
    from the primary-key index: in a [keyed] table the row under [k] is the
    one row whose [id] is [k]. *)
Definition query_customer_first (k : Z) : M (option DBCustomer.t) :=
  λ db, (table_first (customers db) k, db).

(** [db.query(DBCustomer).all()] *)
Definition query_customer_all : M (list DBCustomer.t) :=
  λ db, (Ok (table_all (customers db)), db).

(** [db.query(DBSalesOrder).filter(DBSalesOrder.id == k).first()] *)
Definition query_order_first (k : Z) : M (option DBSalesOrder.t) :=
  λ db, (table_first (sales_orders db) k, db).

(** [db.add(c); db.commit(); db.refresh(c)] *)
Definition add_commit_refresh_customer (c : DBCustomer.t) : M DBCustomer.t :=
  λ db,
    match table_insert (customers db) c with
    | Ok (row, tbl) => (Ok row, mkStore tbl (sales_orders db))
    | Raise e => (Raise e, db)
    end.

Definition add_commit_refresh_order (o : DBSalesOrder.t) : M DBSalesOrder.t :=
  λ db,
    match table_insert (sales_orders db) o with
    | Ok (row, tbl) => (Ok row, mkStore (customers db) tbl)
    | Raise e => (Raise e, db)
    end.

(** [db.commit()] with the modified object [c] in the session. *)
Definition commit_customer (c : DBCustomer.t) : M unit :=
  λ db,
    match table_update (customers db) c with
    | Ok tbl => (Ok (), mkStore tbl (sales_orders db))
    | Raise e => (Raise e, db)
    end.

Definition commit_order (o : DBSalesOrder.t) : M unit :=
  λ db,
    match table_update (sales_orders db) o with
    | Ok tbl => (Ok (), mkStore (customers db) tbl)
    | Raise e => (Raise e, db)
    end.

(** [db.delete(c); db.commit()] *)
Definition delete_commit_customer (c : DBCustomer.t) : M unit :=
  λ db,
    match table_delete (customers db) c with
    | Ok tbl => (Ok (), mkStore tbl (sales_orders db))
    | Raise e => (Raise e, db)
    end.

Definition delete_commit_order (o : DBSalesOrder.t) : M unit :=
  λ db,
    match table_delete (sales_orders db) o with
    | Ok tbl => (Ok (), mkStore (customers db) tbl)
    | Raise e => (Raise e, db)
    end.
End db.

(** [simulate_latency()] sleeps for a random delay and returns. *)
Definition simulate_latency : M unit := mret ().

Definition timestamp_format : string := "%Y-%m-%dT%H:%M:%SZ".
Definition date_format : string := "%Y-%m-%d".

(** *** Customer endpoints *)

Definition create_customer (clock : Clock) (customer : CustomerBase.t) : M DBCustomer.t :=
  simulate_latency;;
  kwargs ← lift (call_kwargs (CustomerBase.model_dump customer)
                   [("dateCreated", PyStr (strftime clock timestamp_format));
                    ("entityId", PyStr "")]);
  db_customer ← lift (DBCustomer.init kwargs);
  db_customer ← db.add_commit_refresh_customer db_customer;
  let db_customer :=
    DBCustomer.set_entityId
      (Some ("CUST-" +:+ py_str_int (DBCustomer.id db_customer))) db_customer in
  db.commit_customer db_customer;;
  mret db_customer.

Definition get_customer_collection : M (list DBCustomer.t) :=
  simulate_latency;;
  customers ← db.query_customer_all;
  mret customers.

Definition get_customer_by_id (customer_id : Z) : M DBCustomer.t :=
  simulate_latency;;
  customer ← db.query_customer_first customer_id;
  match customer with
  | None => raise (HTTPException 404 "Customer not found")
  | Some customer => mret customer
  end.

Definition update_customer (clock : Clock) (customer_id : Z)
    (customer_update : CustomerBase.t) : M unit :=
  simulate_latency;;
  customer ← db.query_customer_first customer_id;
  match customer with
  | None => raise (HTTPException 404 "Customer not found")
  | Some customer =>
      let customer := DBCustomer.set_status (Some "On Hold") customer in
      let customer :=
        DBCustomer.set_lastUpdated (Some (strftime clock timestamp_format)) customer in
      let customer :=
        foldl (λ c kv, DBCustomer.setattr c kv.1 kv.2) customer
          (CustomerBase.model_dump_exclude_unset customer_update) in
      db.commit_customer customer
  end.

Definition delete_customer (customer_id : Z) : M unit :=
  simulate_latency;;
  customer ← db.query_customer_first customer_id;
  match customer with
  | None => raise (HTTPException 404 "Customer not found")
  | Some customer => db.delete_commit_customer customer
  end.

(** *** Sales Order endpoints *)

Definition create_sales_order (clock : Clock) (order : SalesOrderBase.t) : M DBSalesOrder.t :=
  simulate_latency;;
  customer ← db.query_customer_first (SalesOrderBase.entity order);
  match customer with
  | None =>
      raise (HTTPException 400
               ("Customer ID " +:+ pretty (SalesOrderBase.entity order)
                  +:+ " not found. Cannot create Sales Order."))
  | Some _ =>
      kwargs ← lift (call_kwargs (SalesOrderBase.model_dump order)
                       [("trandate",
                         PyStr (py_or (SalesOrderBase.trandate order)
                                  (strftime clock date_format)))]);
      db_order ← lift (DBSalesOrder.init kwargs);
      db_order ← db.add_commit_refresh_order db_order;
      let db_order :=
        DBSalesOrder.set_tranId
          (Some ("SO-" +:+ py_str_int (DBSalesOrder.id db_order))) db_order in
      db.commit_order db_order;;
      mret db_order
  end.

Definition update_sales_order (clock : Clock) (order_id : Z)
    (order_update : SalesOrderBase.t) : M unit :=
  simulate_latency;;
  order ← db.query_order_first order_id;
  match order with
  | None => raise (HTTPException 404 "Sales Order not found")
  | Some order =>
      let order := DBSalesOrder.set_status (Some "Billed") order in
      let order :=
        DBSalesOrder.set_lastUpdated (Some (strftime clock timestamp_format)) order in
      db.commit_order order
  end.

Definition delete_sales_order (order_id : Z) : M unit :=
  simulate_latency;;
  order ← db.query_order_first order_id;
  match order with
  | None => raise (HTTPException 404 "Sales Order not found")
  | Some order => db.delete_commit_order order
  end.

(** ** The HTTP surface *)

Inductive Content (A : Type) :=
| NoContent
| Json (a : A)
| Detail (msg : string).
Arguments NoContent {A}.
Arguments Json {A} a.
Arguments Detail {A} msg.

Record Response (A : Type) := mkResponse {
  status_code : Z;
  content : Content A
}.
Arguments mkResponse {A} status_code content.
Arguments status_code {A} r.
Arguments content {A} r.

(** An [HTTPException] is answered with its own status and detail; any other
    exception leaves the handler unhandled and is answered with 500. *)
Definition error_response {A} (e : Exception) : Response A :=
  match e with
  | HTTPException code detail => mkResponse code (Detail detail)
  | _ => mkResponse 500 (Detail "Internal Server Error")
  end.

Module CustomerResponse.
(** Validation of a returned object against the response schema, read from
    its attributes: [id], [entityId], [dateCreated] and the inherited
    [companyName], [email] and [status] must hold a value; [lastUpdated] may
    be [None]. *)
Definition validates (c : DBCustomer.t) : bool :=
  bool_decide (is_Some (DBCustomer.id c))
  && bool_decide (is_Some (DBCustomer.entityId c))
  && bool_decide (is_Some (DBCustomer.companyName c))
  && bool_decide (is_Some (DBCustomer.email c))
  && bool_decide (is_Some (DBCustomer.status c))
  && bool_decide (is_Some (DBCustomer.dateCreated c)).
End CustomerResponse.

Module SalesOrderResponse.
(** [id], [tranId] and the inherited [entity], [total] and [status] must
    hold a value; [trandate] and [lastUpdated] may be [None]. *)
Definition validates (o : DBSalesOrder.t) : bool :=
  bool_decide (is_Some (DBSalesOrder.id o))
  && bool_decide (is_Some (DBSalesOrder.tranId o))
  && bool_decide (is_Some (DBSalesOrder.entity o))
  && bool_decide (is_Some (DBSalesOrder.total o))
  && bool_decide (is_Some (DBSalesOrder.status o)).
End SalesOrderResponse.

(** A route declared with [response_model]: the value the handler returns
    is validated against the model after the handler has run, and is the
    body if it passes. What the handler wrote stays written either way. *)
Definition serve {A} (response_model : A → bool) (success : Z) (handler : M A)
    (db : Store) : Response A * Store :=
  match handler db with
  | (Ok a, db') =>
      if response_model a then (mkResponse success (Json a), db')
      else (error_response ResponseValidationError, db')
  | (Raise e, db') => (error_response e, db')
  end.

(** A route declared with [HTTP_204_NO_CONTENT]: no body is sent. *)
Definition serve_no_content (handler : M unit) (db : Store) : Response unit * Store :=
  match handler db with
  | (Ok _, db') => (mkResponse 204 NoContent, db')
  | (Raise e, db') => (error_response e, db')
  end.

Module app.
Definition post_customer clock customer :=
  serve CustomerResponse.validates 201 (create_customer clock customer).
Definition get_customers :=
  serve (forallb CustomerResponse.validates) 200 get_customer_collection.
Definition get_customer customer_id :=
  serve CustomerResponse.validates 200 (get_customer_by_id customer_id).
Definition put_customer clock customer_id customer_update :=
  serve_no_content (update_customer clock customer_id customer_update).
Definition delete_customer customer_id := serve_no_content (delete_customer customer_id).
Definition post_salesorder clock order :=
  serve SalesOrderResponse.validates 201 (create_sales_order clock order).
Definition put_salesorder clock order_id order_update :=
  serve_no_content (update_sales_order clock order_id order_update).
Definition delete_salesorder order_id := serve_no_content (delete_sales_order order_id).
End app.

(** ** Runs of the service *)

Inductive Request :=
| CreateCustomer (customer : CustomerBase.t)
| ListCustomers
| GetCustomer (customer_id : Z)
| UpdateCustomer (customer_id : Z) (customer_update : CustomerBase.t)
| DeleteCustomer (customer_id : Z)
| CreateSalesOrder (order : SalesOrderBase.t)
| UpdateSalesOrder (order_id : Z) (order_update : SalesOrderBase.t)
| DeleteSalesOrder (order_id : Z).

(** The store a request leaves behind. *)
Definition handle (clock : Clock) (req : Request) (db : Store) : Store :=
  match req with
  | CreateCustomer c => (app.post_customer clock c db).2
  | ListCustomers => (app.get_customers db).2
  | GetCustomer k => (app.get_customer k db).2
  | UpdateCustomer k c => (app.put_customer clock k c db).2
  | DeleteCustomer k => (app.delete_customer k db).2
  | CreateSalesOrder o => (app.post_salesorder clock o db).2
  | UpdateSalesOrder k o => (app.put_salesorder clock k o db).2
  | DeleteSalesOrder k => (app.delete_salesorder k db).2
  end.

(** The stores the service is in between two requests when it takes its
    requests one at a time, from a fresh database on. A request is one step
    here: what a handler commits before it returns is not a store of this
    kind (see [observable]). *)
Inductive reachable : Store → Prop :=
| reachable_fresh : reachable empty_store
| reachable_handle clock req db : reachable db → reachable (handle clock req db).



(** Every stored customer passes the validation of the response model. *)
Definition complete (tbl : gmap Z DBCustomer.t) : Prop :=
  map_Forall (λ _ r, CustomerResponse.validates r = true) tbl.

(** How a handler ends when the row it asks for is not found: with its own
    404 when the key could be bound, with the query's [OverflowError] when
    it could not. *)
Definition not_found (k : Z) (detail : string) : Exception :=
  if bool_decide (int64 k) then HTTPException 404 detail else OverflowError.

(** A fixed clock and sample payloads for the examples. *)
Definition noon : Clock := λ fmt,
  if bool_decide (fmt = date_format) then "2024-05-17" else "2024-05-17T12:00:00Z".

Definition acme : CustomerBase.t :=
  CustomerBase.mk "Acme" "a@acme.com" "Active" ["companyName"; "email"].

Definition acme_order : SalesOrderBase.t :=
  SalesOrderBase.mk 1 99.5%float "Pending Fulfillment" None.

(** A store as the service leaves it after one customer was created, and
    the same store with an order of that customer in the second table. *)
Definition acme_row : DBCustomer.t :=
  DBCustomer.mk (Some 1) (Some "CUST-1") (Some "Acme") (Some "a@acme.com")
    (Some "Active") (Some "2024-05-17T12:00:00Z") None.

Definition order_row : DBSalesOrder.t :=
  DBSalesOrder.mk (Some 1) (Some "SO-1") (Some 1) (Some 99.5%float)
    (Some "Pending Fulfillment") (Some "2024-05-17") None.

Definition one_customer : Store := mkStore {[1 := acme_row]} ∅.

Definition one_order : Store := mkStore {[1 := acme_row]} {[1 := order_row]}.

(** ** Rows the handlers write and the shape of a sound store *)

(** The row an order update writes back. *)
Definition billed (clock : Clock) (order : DBSalesOrder.t) : DBSalesOrder.t :=
  DBSalesOrder.set_lastUpdated (Some (strftime clock timestamp_format))
    (DBSalesOrder.set_status (Some "Billed") order).

(** The row a customer update writes back. *)
Definition updated (clock : Clock) (customer_update : CustomerBase.t)
    (customer : DBCustomer.t) : DBCustomer.t :=
  foldl (λ c kv, DBCustomer.setattr c kv.1 kv.2)
    (DBCustomer.set_lastUpdated (Some (strftime clock timestamp_format))
       (DBCustomer.set_status (Some "On Hold") customer))
    (CustomerBase.model_dump_exclude_unset customer_update).

(** Every stored customer carries the identifier derived from its key. *)
Definition derived_ids (tbl : gmap Z DBCustomer.t) : Prop :=
  map_Forall (λ k r, DBCustomer.entityId r = Some ("CUST-" +:+ pretty k)) tbl.

(** The record a create call answers with, once the store gave it key [k]. *)
Definition created (clock : Clock) (customer : CustomerBase.t) (k : Z) : DBCustomer.t :=
  DBCustomer.mk (Some k) (Some ("CUST-" +:+ pretty k))
    (Some (CustomerBase.companyName customer)) (Some (CustomerBase.email customer))
    (Some (CustomerBase.status customer)) (Some (strftime clock timestamp_format)) None.

(** Rows sit under their keys and customers carry their derived identifier. *)
Record sound (db : Store) : Prop := mkSound {
  sound_customers : keyed (customers db);
  sound_ids : derived_ids (customers db);
  sound_orders : keyed (sales_orders db)
}.

(** A request body that changes both required fields, and its validated
    form. *)
Definition acme_body : gmap string PyVal :=
  {[ "companyName" := PyStr "Acme Ltd"; "email" := PyStr "b@acme.com" ]}.

Definition acme_update : CustomerBase.t :=
  CustomerBase.mk "Acme Ltd" "b@acme.com" "Active" ["companyName"; "email"].

(** ** Runs of several requests, and stores the service did not build *)


(** A store in which a create call was cut off between its two writes: the
    row is there, its derived identifier is still empty. *)
Definition interrupted : Store :=
  mkStore {[1 := DBCustomer.set_entityId (Some "") acme_row]} ∅.


(** The object a create call builds before the store has seen it. *)
Definition pending (clock : Clock) (customer : CustomerBase.t) : DBCustomer.t :=
  DBCustomer.mk None (Some "") (Some (CustomerBase.companyName customer))
    (Some (CustomerBase.email customer)) (Some (CustomerBase.status customer))
    (Some (strftime clock timestamp_format)) None.

(** * Properties *)

Ltac unfold_handlers :=
  unfold app.post_customer, app.get_customers, app.get_customer, app.put_customer,
    app.delete_customer, app.post_salesorder, app.put_salesorder,
    app.delete_salesorder, serve, serve_no_content,
    create_customer, get_customer_collection, get_customer_by_id, update_customer,
    delete_customer, create_sales_order, update_sales_order, delete_sales_order,
    simulate_latency, raise, lift,
    db.query_customer_first, db.query_customer_all, db.query_order_first,
    db.add_commit_refresh_customer, db.add_commit_refresh_order,
    db.commit_customer, db.commit_order,
    db.delete_commit_customer, db.delete_commit_order;
  unfold mbind, M_bind, mret, M_ret.

(** ** Tables *)

Section TableFacts.
Context {R : Type} `{Model R}.
Implicit Types (tbl : gmap Z R) (r : R) (k : Z).

Lemma foldr_max_ge (k : Z) (ks : list Z) (x : Z) :
  x ∈ k :: ks → x ≤ foldr Z.max k ks.
Proof.
  induction ks as [|a ks IH]; simpl.
  - intros ->%list_elem_of_singleton. lia.
  - rewrite !elem_of_cons. intros [->|[->|Hx]].
    + assert (k ≤ foldr Z.max k ks) by (apply IH; left). lia.
    + lia.
    + assert (x ≤ foldr Z.max k ks) by (apply IH; by right). lia.
Qed.

Lemma next_rowid_above tbl k r : tbl !! k = Some r → k < next_rowid tbl.
Proof.
  intros Hk. unfold next_rowid.
  assert (k ∈ (map_to_list tbl).*1) as Hin.
  { apply list_elem_of_fmap. exists (k, r). split; [done|].
    by apply elem_of_map_to_list. }
  destruct ((map_to_list tbl).*1) as [|k0 ks].
  - by apply elem_of_nil in Hin.
  - apply foldr_max_ge in Hin. lia.
Qed.

Lemma next_rowid_fresh tbl : tbl !! next_rowid tbl = None.
Proof.
  destruct (tbl !! next_rowid tbl) as [r|] eqn:Hk; [|done].
  apply next_rowid_above in Hk. lia.
Qed.

Lemma unique_taken_false tbl k v :
  (∀ j r, tbl !! j = Some r → j ≠ k → unique_col r ≠ v) →
  unique_taken tbl k v = false.
Proof.
  intros Hfree. unfold unique_taken. apply bool_decide_eq_false.
  intros [_ (j & r & Hj & Hne & Hv)]. by eapply Hfree.
Qed.

Lemma table_insert_fresh tbl r :
  pk r = None →
  (∀ j r', tbl !! j = Some r' → j ≠ next_rowid tbl → unique_col r' ≠ unique_col r) →
  table_insert tbl r =
    Ok (set_pk (Some (next_rowid tbl)) r,
        <[next_rowid tbl := set_pk (Some (next_rowid tbl)) r]> tbl).
Proof.
  intros Hpk Hfree. unfold table_insert. rewrite Hpk. cbn [default].
  rewrite bool_decide_eq_false_2
    by (rewrite next_rowid_fresh; by intros [? [=]]).
  by rewrite unique_taken_false.
Qed.

(** An update to a value no other row holds goes through. *)
Lemma table_update_free tbl k r :
  is_Some (tbl !! k) → pk r = Some k →
  (∀ j r', tbl !! j = Some r' → j ≠ k → unique_col r' ≠ unique_col r) →
  table_update tbl r = Ok (<[k := r]> tbl).
Proof.
  intros [old Hk] Hpk Hfree. unfold table_update. rewrite Hpk, Hk.
  rewrite unique_taken_false by done. by rewrite andb_false_r.
Qed.

(** An update that leaves the unique column alone goes through. *)
Lemma table_update_same_unique tbl k old r :
  tbl !! k = Some old → pk r = Some k → unique_col r = unique_col old →
  table_update tbl r = Ok (<[k := r]> tbl).
Proof.
  intros Hk Hpk Hu. unfold table_update. rewrite Hpk, Hk.
  rewrite bool_decide_eq_false_2; [done|]. by intros [].
Qed.

Lemma table_delete_present tbl k r :
  tbl !! k = Some r → pk r = Some k → table_delete tbl r = Ok (delete k tbl).
Proof.
  intros Hk Hpk. unfold table_delete. rewrite Hpk.
  by rewrite bool_decide_eq_true_2.
Qed.
End TableFacts.

(** ** Handlers, one equation per outcome *)

Lemma get_customer_collection_run db :
  get_customer_collection db = (Ok (table_all (customers db)), db).
Proof. reflexivity. Qed.

Lemma get_customer_by_id_run customer_id db :
  get_customer_by_id customer_id db =
    match customers db !! customer_id with
    | Some customer => (Ok customer, db)
    | None => (Raise (not_found customer_id "Customer not found"), db)
    end.
Proof.
  unfold_handlers. unfold table_first, not_found.
  destruct (customers db !! customer_id); [done|]. by destruct (bool_decide _).
Qed.

Lemma delete_customer_absent customer_id db :
  customers db !! customer_id = None →
  delete_customer customer_id db = (Raise (not_found customer_id "Customer not found"), db).
Proof.
  intros Hk. unfold_handlers. unfold table_first, not_found. rewrite Hk.
  by destruct (bool_decide _).
Qed.

Lemma delete_customer_present customer_id db c :
  keyed (customers db) → customers db !! customer_id = Some c →
  delete_customer customer_id db =
    (Ok (), mkStore (delete customer_id (customers db)) (sales_orders db)).
Proof.
  intros Hkeyed Hk. unfold_handlers. unfold table_first. rewrite Hk.
  by rewrite (table_delete_present _ customer_id c) by (done || by apply Hkeyed).
Qed.

Lemma delete_sales_order_absent order_id db :
  sales_orders db !! order_id = None →
  delete_sales_order order_id db = (Raise (not_found order_id "Sales Order not found"), db).
Proof.
  intros Hk. unfold_handlers. unfold table_first, not_found. rewrite Hk.
  by destruct (bool_decide _).
Qed.

Lemma delete_sales_order_present order_id db o :
  keyed (sales_orders db) → sales_orders db !! order_id = Some o →
  delete_sales_order order_id db =
    (Ok (), mkStore (customers db) (delete order_id (sales_orders db))).
Proof.
  intros Hkeyed Hk. unfold_handlers. unfold table_first. rewrite Hk.
  by rewrite (table_delete_present _ order_id o) by (done || by apply Hkeyed).
Qed.

Lemma update_sales_order_absent clock order_id order_update db :
  sales_orders db !! order_id = None →
  update_sales_order clock order_id order_update db =
    (Raise (not_found order_id "Sales Order not found"), db).
Proof.
  intros Hk. unfold_handlers. unfold table_first, not_found. rewrite Hk.
  by destruct (bool_decide _).
Qed.

Lemma update_sales_order_present clock order_id order_update db o :
  keyed (sales_orders db) → sales_orders db !! order_id = Some o →
  update_sales_order clock order_id order_update db =
    (Ok (), mkStore (customers db) (<[order_id := billed clock o]> (sales_orders db))).
Proof.
  intros Hkeyed Hk. unfold_handlers. unfold table_first. rewrite Hk.
  fold (billed clock o).
  rewrite (table_update_same_unique _ order_id o); [done..| |done].
  by apply (Hkeyed order_id o).
Qed.

(** The call that builds the new order names [trandate] twice: once through
    the unpacked [model_dump], once as a keyword. *)
Lemma sales_order_kwargs_clash order d :
  call_kwargs (SalesOrderBase.model_dump order) [("trandate", d)] =
    Raise (TypeError "got multiple values for keyword argument 'trandate'").
Proof. reflexivity. Qed.

Lemma create_sales_order_unknown_customer clock order db :
  customers db !! SalesOrderBase.entity order = None →
  create_sales_order clock order db =
    (Raise (if bool_decide (int64 (SalesOrderBase.entity order))
            then HTTPException 400
                   ("Customer ID " +:+ pretty (SalesOrderBase.entity order)
                      +:+ " not found. Cannot create Sales Order.")
            else OverflowError), db).
Proof.
  intros Hk. unfold_handlers. unfold table_first. rewrite Hk.
  by destruct (bool_decide _).
Qed.

Lemma create_sales_order_known_customer clock order db c :
  customers db !! SalesOrderBase.entity order = Some c →
  create_sales_order clock order db =
    (Raise (TypeError "got multiple values for keyword argument 'trandate'"),
     db).
Proof.
  intros Hk. unfold_handlers. unfold table_first. rewrite Hk.
  by rewrite sales_order_kwargs_clash.
Qed.

Lemma create_sales_order_store clock order db :
  (create_sales_order clock order db).2 = db.
Proof.
  destruct (customers db !! SalesOrderBase.entity order) as [c|] eqn:Hk.
  - by erewrite create_sales_order_known_customer.
  - by rewrite create_sales_order_unknown_customer.
Qed.

(** *** Customer update *)

Lemma updated_columns clock p c :
  let given (field : string) := bool_decide (field ∈ CustomerBase.model_fields_set p) in
  updated clock p c =
    DBCustomer.mk (DBCustomer.id c) (DBCustomer.entityId c)
      (if given "companyName" then Some (CustomerBase.companyName p)
       else DBCustomer.companyName c)
      (if given "email" then Some (CustomerBase.email p) else DBCustomer.email c)
      (Some (if given "status" then CustomerBase.status p else "On Hold"))
      (DBCustomer.dateCreated c)
      (Some (strftime clock timestamp_format)).
Proof.
  unfold updated, CustomerBase.model_dump_exclude_unset, CustomerBase.model_dump.
  cbn [List.filter fst snd].
  destruct (bool_decide ("companyName" ∈ _)), (bool_decide ("email" ∈ _)),
    (bool_decide ("status" ∈ _)); reflexivity.
Qed.

Lemma update_customer_absent clock customer_id customer_update db :
  customers db !! customer_id = None →
  update_customer clock customer_id customer_update db =
    (Raise (not_found customer_id "Customer not found"), db).
Proof.
  intros Hk. unfold_handlers. unfold table_first, not_found. rewrite Hk.
  by destruct (bool_decide _).
Qed.

Lemma update_customer_present clock customer_id customer_update db c :
  keyed (customers db) → customers db !! customer_id = Some c →
  update_customer clock customer_id customer_update db =
    (Ok (), mkStore (<[customer_id := updated clock customer_update c]> (customers db))
              (sales_orders db)).
Proof.
  intros Hkeyed Hk. unfold_handlers. unfold table_first. rewrite Hk.
  fold (updated clock customer_update c).
  rewrite (table_update_same_unique _ customer_id c); [done|done| |].
  - rewrite updated_columns. by apply (Hkeyed customer_id c).
  - by rewrite updated_columns.
Qed.

(** *** Customer create *)

Lemma create_customer_run clock customer db :
  derived_ids (customers db) →
  let k := next_rowid (customers db) in
  create_customer clock customer db =
    (Ok (created clock customer k),
     mkStore (<[k := created clock customer k]> (customers db)) (sales_orders db)).
Proof.
  intros Hids k.
  assert (customers db !! k = None) as Hfresh by apply next_rowid_fresh.
  unfold_handlers.
  change (call_kwargs _ _) with
    (Ok (CustomerBase.model_dump customer ++
         [("dateCreated", PyStr (strftime clock timestamp_format));
          ("entityId", PyStr "")])%list).
  cbv beta iota.
  change (DBCustomer.init _) with
    (Ok (DBCustomer.mk None (Some "") (Some (CustomerBase.companyName customer))
           (Some (CustomerBase.email customer)) (Some (CustomerBase.status customer))
           (Some (strftime clock timestamp_format)) None)).
  cbv beta iota.
  rewrite table_insert_fresh; [|done|]; last first.
  { intros j r Hj _. cbn. rewrite (Hids j r Hj). by intros [=]. }
  fold k. clearbody k. cbv beta iota zeta. cbn [customers sales_orders].
  rewrite (table_update_free _ k) by (by rewrite lookup_insert_eq) || done || (
    intros j r Hj Hjk; rewrite lookup_insert_ne in Hj by done;
    cbn; rewrite (Hids j r Hj); intros [= Heq]; apply Hjk, (inj pretty), Heq).
  by rewrite insert_insert_eq.
Qed.

(** *** Effects on the other table *)

Lemma delete_customer_orders customer_id db :
  sales_orders (delete_customer customer_id db).2 = sales_orders db.
Proof.
  unfold_handlers. unfold table_first.
  destruct (customers db !! customer_id) as [c|]; [|by destruct (bool_decide _)].
  by destruct (table_delete (customers db) c).
Qed.

Lemma create_customer_orders clock customer db :
  sales_orders (create_customer clock customer db).2 = sales_orders db.
Proof.
  unfold_handlers.
  destruct (call_kwargs _ _) as [kwargs|]; [|done]. cbv beta iota.
  destruct (DBCustomer.init kwargs) as [c|]; [|done]. cbv beta iota.
  destruct (table_insert (customers db) c) as [[row tbl]|]; [|done]. cbv beta iota.
  by destruct (table_update _ _).
Qed.

Lemma update_customer_orders clock customer_id customer_update db :
  sales_orders (update_customer clock customer_id customer_update db).2 = sales_orders db.
Proof.
  unfold_handlers. unfold table_first.
  destruct (customers db !! customer_id) as [c|]; [|by destruct (bool_decide _)].
  by destruct (table_update (customers db) _).
Qed.

Lemma update_sales_order_customers clock order_id order_update db :
  customers (update_sales_order clock order_id order_update db).2 = customers db.
Proof.
  unfold_handlers. unfold table_first.
  destruct (sales_orders db !! order_id) as [o|]; [|by destruct (bool_decide _)].
  by destruct (table_update (sales_orders db) _).
Qed.

Lemma delete_sales_order_customers order_id db :
  customers (delete_sales_order order_id db).2 = customers db.
Proof.
  unfold_handlers. unfold table_first.
  destruct (sales_orders db !! order_id) as [o|]; [|by destruct (bool_decide _)].
  by destruct (table_delete (sales_orders db) o).
Qed.

(** What a route leaves behind is what its handler leaves behind. *)
Lemma serve_store {A} (model : A → bool) code (handler : M A) db :
  (serve model code handler db).2 = (handler db).2.
Proof.
  unfold serve. destruct (handler db) as [[a|e] db']; [|done]. by destruct (model a).
Qed.

Lemma serve_no_content_store (handler : M unit) db :
  (serve_no_content handler db).2 = (handler db).2.
Proof. unfold serve_no_content. by destruct (handler db) as [[a|e] db']. Qed.

(** ** The stores the service reaches *)

Lemma sound_fresh : sound empty_store.
Proof. split; apply map_Forall_empty. Qed.

Lemma handle_sound clock req db : sound db → sound (handle clock req db).
Proof.
  intros [Hc Hi Ho].
  destruct req as [p| |k|k p|k|o|k o|k]; unfold handle;
    unfold app.post_customer, app.get_customers, app.get_customer, app.put_customer,
      app.delete_customer, app.post_salesorder, app.put_salesorder,
      app.delete_salesorder;
    rewrite ?serve_store, ?serve_no_content_store.
  - rewrite create_customer_run by done. split; cbn [customers sales_orders snd]; [| |done].
    + by apply map_Forall_insert_2.
    + by apply map_Forall_insert_2.
  - by rewrite get_customer_collection_run.
  - rewrite get_customer_by_id_run. by destruct (customers db !! k).
  - destruct (customers db !! k) as [c|] eqn:Hk.
    + rewrite (update_customer_present _ _ _ _ c) by done.
      split; cbn [customers sales_orders snd]; [| |done].
      * apply map_Forall_insert_2; [|done]. rewrite updated_columns. by apply (Hc k c).
      * apply map_Forall_insert_2; [|done]. rewrite updated_columns. by apply (Hi k c).
    + by rewrite update_customer_absent.
  - destruct (customers db !! k) as [c|] eqn:Hk.
    + rewrite (delete_customer_present _ _ c) by done.
      split; cbn [customers sales_orders snd]; [| |done]; by apply map_Forall_delete.
    + by rewrite delete_customer_absent.
  - by rewrite create_sales_order_store.
  - destruct (sales_orders db !! k) as [r|] eqn:Hk.
    + rewrite (update_sales_order_present _ _ _ _ r) by done.
      split; cbn [customers sales_orders snd]; [done..|].
      apply map_Forall_insert_2; [|done]. by apply (Ho k r).
    + by rewrite update_sales_order_absent.
  - destruct (sales_orders db !! k) as [r|] eqn:Hk.
    + rewrite (delete_sales_order_present _ _ r) by done.
      split; cbn [customers sales_orders snd]; [done..|]. by apply map_Forall_delete.
    + by rewrite delete_sales_order_absent.
Qed.

Lemma reachable_sound db : reachable db → sound db.
Proof.
  induction 1 as [|clock req db _ IH]; [apply sound_fresh|by apply handle_sound].
Qed.

(** No request ever adds a row to the second table. *)
Lemma reachable_no_orders db : reachable db → sales_orders db = ∅.
Proof.
  induction 1 as [|clock req db _ IH]; [done|].
  destruct req as [p| |k|k p|k|o|k o|k]; unfold handle;
    unfold app.post_customer, app.get_customers, app.get_customer, app.put_customer,
      app.delete_customer, app.post_salesorder, app.put_salesorder,
      app.delete_salesorder;
    rewrite ?serve_store, ?serve_no_content_store.
  - by rewrite create_customer_orders.
  - by rewrite get_customer_collection_run.
  - rewrite get_customer_by_id_run. by destruct (customers db !! k).
  - by rewrite update_customer_orders.
  - by rewrite delete_customer_orders.
  - by rewrite create_sales_order_store.
  - rewrite update_sales_order_absent; [done|]. by rewrite IH.
  - rewrite delete_sales_order_absent; [done|]. by rewrite IH.
Qed.

(** ** Sample stores *)

Lemma one_customer_keyed : keyed (customers one_customer).
Proof. by apply map_Forall_singleton. Qed.

Lemma one_order_keyed : keyed (sales_orders one_order).
Proof. by apply map_Forall_singleton. Qed.

Lemma one_customer_reachable : reachable one_customer.
Proof. exact (reachable_handle noon (CreateCustomer acme) empty_store reachable_fresh). Qed.

(** The scenario of the specification, on a fresh database: the first
    customer gets key 1, status "Active" and identifier "CUST-1". *)
Example scenario_create_customer :
  app.post_customer noon acme empty_store = (mkResponse 201 (Json acme_row), one_customer).
Proof. reflexivity. Qed.

(** An update that names a status keeps it; one that does not leaves the
    customer on hold. *)
Example scenario_update_customer :
  (customers (app.put_customer noon 1 acme one_customer).2 !! 1)
    ≫= DBCustomer.status = Some "On Hold" ∧
  (customers (app.put_customer noon 1
                (CustomerBase.mk "Acme" "a@acme.com" "Closed"
                   ["companyName"; "email"; "status"]) one_customer).2 !! 1)
    ≫= DBCustomer.status = Some "Closed".
Proof. split; reflexivity. Qed.


(** * The claims *)

(** C1. A Sales Order create request whose entity matches an existing
    Customer id is expected to succeed with HTTP 201 and the populated
    record. The handler does not get that far: at a store that holds
    customer 1, the request [{entity: 1, total: 99.5}] passes the customer
    check and then raises [TypeError], because the constructor call is given
    [trandate] twice; the request is answered with 500 and no row is
    written. *)
Theorem create_sales_order_existing_customer_raises :
  reachable one_customer ∧
  customers one_customer !! SalesOrderBase.entity acme_order = Some acme_row ∧
  create_sales_order noon acme_order one_customer =
    (Raise (TypeError "got multiple values for keyword argument 'trandate'"),
     one_customer) ∧
  app.post_salesorder noon acme_order one_customer =
    (mkResponse 500 (Detail "Internal Server Error"), one_customer).
Proof.
  assert (customers one_customer !! SalesOrderBase.entity acme_order = Some acme_row)
    as Hk by reflexivity.
  split; [exact one_customer_reachable|]. split; [done|]. split.
  - by apply create_sales_order_known_customer with acme_row.
  - unfold app.post_salesorder, serve.
    by rewrite (create_sales_order_known_customer _ _ _ acme_row).
Qed.







(** C4. For every Sales Order update on an existing id, whatever the
    payload holds, the stored record's status becomes "Billed" and
    lastUpdated is refreshed, while id, tranId, entity, total and trandate of
    that record and every other record in the store stay as they were. *)
Theorem update_sales_order_bills clock order_id order_update db o :
  keyed (sales_orders db) →
  sales_orders db !! order_id = Some o →
  ∃ o' db',
    app.put_salesorder clock order_id order_update db =
      (mkResponse 204 NoContent, db') ∧
    sales_orders db' !! order_id = Some o' ∧
    DBSalesOrder.status o' = Some "Billed" ∧
    DBSalesOrder.lastUpdated o' = Some (strftime clock timestamp_format) ∧
    DBSalesOrder.id o' = DBSalesOrder.id o ∧
    DBSalesOrder.tranId o' = DBSalesOrder.tranId o ∧
    DBSalesOrder.entity o' = DBSalesOrder.entity o ∧
    DBSalesOrder.total o' = DBSalesOrder.total o ∧
    DBSalesOrder.trandate o' = DBSalesOrder.trandate o ∧
    (∀ j, j ≠ order_id → sales_orders db' !! j = sales_orders db !! j) ∧
    customers db' = customers db.
Proof.
  intros Hkeyed Hk. exists (billed clock o). eexists.
  unfold app.put_salesorder, serve_no_content.
  rewrite (update_sales_order_present _ _ _ _ o) by done.
  split; [reflexivity|]. split; [apply lookup_insert_eq|].
  repeat (split; [reflexivity|]). split; [|reflexivity].
  intros j Hj. cbn [sales_orders]. by rewrite lookup_insert_ne.
Qed.

Lemma update_sales_order_bills_witness :
  keyed (sales_orders one_order) ∧
  sales_orders one_order !! 1 = Some order_row ∧
  ∃ o' db',
    app.put_salesorder noon 1 acme_order one_order = (mkResponse 204 NoContent, db') ∧
    sales_orders db' !! 1 = Some o' ∧
    DBSalesOrder.status o' = Some "Billed" ∧
    DBSalesOrder.lastUpdated o' = Some (strftime noon timestamp_format) ∧
    DBSalesOrder.id o' = DBSalesOrder.id order_row ∧
    DBSalesOrder.tranId o' = DBSalesOrder.tranId order_row ∧
    DBSalesOrder.entity o' = DBSalesOrder.entity order_row ∧
    DBSalesOrder.total o' = DBSalesOrder.total order_row ∧
    DBSalesOrder.trandate o' = DBSalesOrder.trandate order_row ∧
    (∀ j, j ≠ 1 → sales_orders db' !! j = sales_orders one_order !! j) ∧
    customers db' = customers one_order.
Proof.
  split; [exact one_order_keyed|]. split; [reflexivity|].
  exact (update_sales_order_bills noon 1 acme_order one_order order_row
           one_order_keyed eq_refl).
Defined.

(** C5, as it fails: the claim promises 400 for every entity that matches
    no Customer id. The entity 2^63 matches none, yet it cannot be bound as
    a query parameter: the lookup raises [OverflowError] and the answer is
    500. *)
Lemma create_sales_order_entity_out_of_range :
  customers one_customer !! (2 ^ 63) = None ∧
  app.post_salesorder noon
      (SalesOrderBase.mk (2 ^ 63) 99.5%float "Pending Fulfillment" None) one_customer =
    (mkResponse 500 (Detail "Internal Server Error"), one_customer) ∧
  status_code
      (app.post_salesorder noon
         (SalesOrderBase.mk (2 ^ 63) 99.5%float "Pending Fulfillment" None)
         one_customer).1 ≠ 400.
Proof.
  split; [reflexivity|].
  assert (app.post_salesorder noon
            (SalesOrderBase.mk (2 ^ 63) 99.5%float "Pending Fulfillment" None)
            one_customer =
          (mkResponse 500 (Detail "Internal Server Error"), one_customer)) as Hrun.
  { unfold app.post_salesorder, serve.
    by rewrite create_sales_order_unknown_customer. }
  split; [exact Hrun|]. by rewrite Hrun.
Qed.

(** C5. For every Sales Order create request whose entity is a 64-bit
    integer that matches no existing Customer id, the answer is a
    Bad-Request (400) error whose message names the offending customer id,
    and the store is left as it was. *)
Theorem create_sales_order_invalid_reference clock order db :
  int64 (SalesOrderBase.entity order) →
  customers db !! SalesOrderBase.entity order = None →
  app.post_salesorder clock order db =
    (mkResponse 400
       (Detail ("Customer ID " +:+ pretty (SalesOrderBase.entity order)
                  +:+ " not found. Cannot create Sales Order.")),
     db).
Proof.
  intros Hrange Hk. unfold app.post_salesorder, serve.
  rewrite create_sales_order_unknown_customer by done.
  by rewrite bool_decide_eq_true_2.
Qed.

Lemma create_sales_order_invalid_reference_witness :
  int64 7 ∧
  customers one_customer !! 7 = None ∧
  app.post_salesorder noon (SalesOrderBase.mk 7 99.5%float "Pending Fulfillment" None)
      one_customer =
    (mkResponse 400 (Detail "Customer ID 7 not found. Cannot create Sales Order."),
     one_customer).
Proof.
  assert (int64 7) as Hrange by (unfold int64; lia).
  split; [exact Hrange|]. split; [reflexivity|].
  exact (create_sales_order_invalid_reference noon
           (SalesOrderBase.mk 7 99.5%float "Pending Fulfillment" None)
           one_customer Hrange eq_refl).
Defined.

(** C6, as it fails: the claim promises 404 for every id that is absent.
    The id 2^63 is absent from both tables, yet it cannot be bound as a
    query parameter: both deletes raise [OverflowError] and answer 500. *)
Lemma delete_id_out_of_range :
  customers one_order !! (2 ^ 63) = None ∧
  sales_orders one_order !! (2 ^ 63) = None ∧
  app.delete_customer (2 ^ 63) one_order =
    (mkResponse 500 (Detail "Internal Server Error"), one_order) ∧
  app.delete_salesorder (2 ^ 63) one_order =
    (mkResponse 500 (Detail "Internal Server Error"), one_order).
Proof.
  split; [reflexivity|]. split; [reflexivity|].
  unfold app.delete_customer, app.delete_salesorder, serve_no_content.
  by rewrite delete_customer_absent, delete_sales_order_absent.
Qed.

(** C6. For either resource and an id within the 64-bit range, deleting the
    id when it is absent from the store fails with Not-Found (404); deleting
    it when it exists removes that record and no other, and for a Customer a
    Get by the same id then fails with Not-Found. *)
Theorem delete_then_not_found db k :
  int64 k →
  keyed (customers db) →
  keyed (sales_orders db) →
  (customers db !! k = None →
     app.delete_customer k db = (mkResponse 404 (Detail "Customer not found"), db)) ∧
  (sales_orders db !! k = None →
     app.delete_salesorder k db = (mkResponse 404 (Detail "Sales Order not found"), db)) ∧
  (is_Some (customers db !! k) →
     ∃ db', app.delete_customer k db = (mkResponse 204 NoContent, db') ∧
       customers db' !! k = None ∧
       (∀ j, j ≠ k → customers db' !! j = customers db !! j) ∧
       app.get_customer k db' = (mkResponse 404 (Detail "Customer not found"), db')) ∧
  (is_Some (sales_orders db !! k) →
     ∃ db', app.delete_salesorder k db = (mkResponse 204 NoContent, db') ∧
       sales_orders db' !! k = None ∧
       (∀ j, j ≠ k → sales_orders db' !! j = sales_orders db !! j)).
Proof.
  intros Hrange Hc Ho.
  assert (∀ detail, not_found k detail = HTTPException 404 detail) as Hnf.
  { intros detail. unfold not_found. by rewrite bool_decide_eq_true_2. }
  split; [|split; [|split]].
  - intros Hk. unfold app.delete_customer, serve_no_content.
    by rewrite delete_customer_absent, Hnf.
  - intros Hk. unfold app.delete_salesorder, serve_no_content.
    by rewrite delete_sales_order_absent, Hnf.
  - intros [c Hk]. eexists. unfold app.delete_customer, serve_no_content.
    rewrite (delete_customer_present _ _ c) by done.
    split; [reflexivity|]. cbn [customers]. split; [apply lookup_delete_eq|].
    split; [intros j Hj; by rewrite lookup_delete_ne|].
    unfold app.get_customer, serve. rewrite get_customer_by_id_run.
    cbn [customers]. by rewrite lookup_delete_eq, Hnf.
  - intros [o Hk]. eexists. unfold app.delete_salesorder, serve_no_content.
    rewrite (delete_sales_order_present _ _ o) by done.
    split; [reflexivity|]. cbn [sales_orders]. split; [apply lookup_delete_eq|].
    intros j Hj. by rewrite lookup_delete_ne.
Qed.

Lemma delete_then_not_found_witness :
  int64 1 ∧
  keyed (customers one_order) ∧
  keyed (sales_orders one_order) ∧
  app.delete_customer 2 one_order =
    (mkResponse 404 (Detail "Customer not found"), one_order) ∧
  app.delete_salesorder 2 one_order =
    (mkResponse 404 (Detail "Sales Order not found"), one_order) ∧
  (∃ db', app.delete_customer 1 one_order = (mkResponse 204 NoContent, db') ∧
     customers db' !! 1 = None ∧
     (∀ j, j ≠ 1 → customers db' !! j = customers one_order !! j) ∧
     app.get_customer 1 db' = (mkResponse 404 (Detail "Customer not found"), db')) ∧
  (∃ db', app.delete_salesorder 1 one_order = (mkResponse 204 NoContent, db') ∧
     sales_orders db' !! 1 = None ∧
     (∀ j, j ≠ 1 → sales_orders db' !! j = sales_orders one_order !! j)).
Proof.
  assert (int64 1) as H1 by (unfold int64; lia).
  assert (int64 2) as H2 by (unfold int64; lia).
  split; [exact H1|]. split; [exact one_customer_keyed|]. split; [exact one_order_keyed|].
  destruct (delete_then_not_found one_order 2 H2 one_customer_keyed one_order_keyed)
    as (Hc & Ho & _).
  destruct (delete_then_not_found one_order 1 H1 one_customer_keyed one_order_keyed)
    as (_ & _ & Hc' & Ho').
  split; [exact (Hc eq_refl)|]. split; [exact (Ho eq_refl)|].
  split; [exact (Hc' (ex_intro _ acme_row eq_refl))
         |exact (Ho' (ex_intro _ order_row eq_refl))].
Defined.

(** C7. For every successful Customer delete, every Sales Order record in
    the store stays exactly as it was, the orders whose entity names the
    deleted customer included: nothing is deleted along, no field changes. *)
Theorem delete_customer_keeps_orders db customer_id c :
  keyed (customers db) →
  customers db !! customer_id = Some c →
  ∃ db',
    app.delete_customer customer_id db = (mkResponse 204 NoContent, db') ∧
    sales_orders db' = sales_orders db ∧
    (∀ j o, sales_orders db !! j = Some o →
       DBSalesOrder.entity o = Some customer_id →
       sales_orders db' !! j = Some o).
Proof.
  intros Hkeyed Hk. eexists. unfold app.delete_customer, serve_no_content.
  rewrite (delete_customer_present _ _ c) by done.
  split; [reflexivity|]. split; [reflexivity|]. by intros j o Hj _.
Qed.

Lemma delete_customer_keeps_orders_witness :
  keyed (customers one_order) ∧
  customers one_order !! 1 = Some acme_row ∧
  ∃ db',
    app.delete_customer 1 one_order = (mkResponse 204 NoContent, db') ∧
    sales_orders db' = sales_orders one_order ∧
    (∀ j o, sales_orders one_order !! j = Some o →
       DBSalesOrder.entity o = Some 1 →
       sales_orders db' !! j = Some o).
Proof.
  split; [exact one_customer_keyed|]. split; [reflexivity|].
  exact (delete_customer_keeps_orders one_order 1 acme_row one_customer_keyed eq_refl).
Defined.

(** A body the schema accepts holds both required fields, and the validated
    payload records them as given. *)
Lemma model_validate_required body p :
  CustomerBase.model_validate body = Some p →
  body !! "companyName" = Some (PyStr (CustomerBase.companyName p)) ∧
  body !! "email" = Some (PyStr (CustomerBase.email p)) ∧
  "companyName" ∈ CustomerBase.model_fields_set p ∧
  "email" ∈ CustomerBase.model_fields_set p.
Proof.
  unfold CustomerBase.model_validate. intros Hp.
  destruct (body !! "companyName") as [[| | |name]|]; try done.
  destruct (body !! "email") as [[| | |mail]|]; try done.
  destruct (body !! "status") as [[| | |st]|]; simplify_eq/=;
    (split; [done|]; split; [done|]; split; set_solver).
Qed.

(** The validated payload counts [status] as given exactly when the body
    holds it, and then carries the body's value. *)
Lemma model_validate_status body p :
  CustomerBase.model_validate body = Some p →
  ("status" ∈ CustomerBase.model_fields_set p ↔ is_Some (body !! "status")) ∧
  (∀ st, body !! "status" = Some st → st = PyStr (CustomerBase.status p)).
Proof.
  unfold CustomerBase.model_validate. intros Hp.
  destruct (body !! "companyName") as [[| | |name]|]; try done.
  destruct (body !! "email") as [[| | |mail]|]; try done.
  destruct (body !! "status") as [[| | |st]|]; simplify_eq/=.
  - split; [|by intros ? [= <-]]. split; [by eexists|set_solver].
  - split; [|done]. split; [|by intros [? [=]]].
    rewrite !elem_of_cons, elem_of_nil. by intros [[=]|[[=]|[]]].
Qed.

(** C8. For every successful Customer update, the stored record's
    companyName and email are overwritten with the payload's values: both
    are required fields of the schema, so every accepted body holds them and
    they are applied; leaving one out of the body cannot preserve it. *)
Theorem update_customer_overwrites_required clock customer_id body p db db' :
  keyed (customers db) →
  CustomerBase.model_validate body = Some p →
  app.put_customer clock customer_id p db = (mkResponse 204 NoContent, db') →
  body !! "companyName" = Some (PyStr (CustomerBase.companyName p)) ∧
  body !! "email" = Some (PyStr (CustomerBase.email p)) ∧
  ∃ c',
    customers db' !! customer_id = Some c' ∧
    DBCustomer.companyName c' = Some (CustomerBase.companyName p) ∧
    DBCustomer.email c' = Some (CustomerBase.email p).
Proof.
  intros Hkeyed (Hname & Hmail & Hn & Hm)%model_validate_required Hrun.
  split; [done|]. split; [done|].
  unfold app.put_customer, serve_no_content in Hrun.
  destruct (customers db !! customer_id) as [c|] eqn:Hk.
  - rewrite (update_customer_present _ _ _ _ c) in Hrun by done.
    injection Hrun as <-. exists (updated clock p c).
    split; [apply lookup_insert_eq|]. rewrite updated_columns. cbn.
    by rewrite !bool_decide_eq_true_2.
  - rewrite update_customer_absent in Hrun by done. unfold not_found in Hrun.
    by destruct (bool_decide _).
Qed.

Lemma update_customer_overwrites_required_witness :
  keyed (customers one_customer) ∧
  CustomerBase.model_validate acme_body = Some acme_update ∧
  app.put_customer noon 1 acme_update one_customer =
    (mkResponse 204 NoContent, (app.put_customer noon 1 acme_update one_customer).2) ∧
  acme_body !! "companyName" = Some (PyStr "Acme Ltd") ∧
  acme_body !! "email" = Some (PyStr "b@acme.com") ∧
  ∃ c',
    customers (app.put_customer noon 1 acme_update one_customer).2 !! 1 = Some c' ∧
    DBCustomer.companyName c' = Some "Acme Ltd" ∧
    DBCustomer.email c' = Some "b@acme.com".
Proof.
  split; [exact one_customer_keyed|]. split; [reflexivity|]. split; [reflexivity|].
  exact (update_customer_overwrites_required noon 1 acme_body acme_update one_customer
           (app.put_customer noon 1 acme_update one_customer).2
           one_customer_keyed eq_refl eq_refl).
Defined.

(** C9, as it fails: the claim has the handler raise Not-Found whenever
    the order id is absent. The id 2^63 is absent, yet it cannot be bound as
    a query parameter: the handler raises [OverflowError], not Not-Found. *)
Lemma update_sales_order_id_out_of_range :
  sales_orders one_order !! (2 ^ 63) = None ∧
  (update_sales_order noon (2 ^ 63) acme_order one_order).1 = Raise OverflowError ∧
  (update_sales_order noon (2 ^ 63) acme_order one_order).1
    ≠ Raise (HTTPException 404 "Sales Order not found").
Proof.
  split; [reflexivity|].
  assert ((update_sales_order noon (2 ^ 63) acme_order one_order).1 = Raise OverflowError)
    as Hrun by by rewrite update_sales_order_absent.
  split; [exact Hrun|]. by rewrite Hrun.
Qed.

(** C9. Sales Order update raises Not-Found exactly when the order id is
    absent and within the 64-bit range. It never looks at the Customer
    table: an order whose customer has been deleted is still updated, with
    HTTP 204 and status "Billed". *)
Theorem update_sales_order_not_found_iff clock order_id order_update db :
  keyed (customers db) →
  keyed (sales_orders db) →
  ((update_sales_order clock order_id order_update db).1 =
      Raise (HTTPException 404 "Sales Order not found")
    ↔ sales_orders db !! order_id = None ∧ int64 order_id) ∧
  (∀ o e,
     sales_orders db !! order_id = Some o →
     DBSalesOrder.entity o = Some e →
     is_Some (customers db !! e) →
     ∃ orphaned db' o',
       app.delete_customer e db = (mkResponse 204 NoContent, orphaned) ∧
       customers orphaned !! e = None ∧
       sales_orders orphaned !! order_id = Some o ∧
       app.put_salesorder clock order_id order_update orphaned =
         (mkResponse 204 NoContent, db') ∧
       sales_orders db' !! order_id = Some o' ∧
       DBSalesOrder.status o' = Some "Billed").
Proof.
  intros Hc Ho. split.
  - destruct (sales_orders db !! order_id) as [o|] eqn:Hk.
    + rewrite (update_sales_order_present _ _ _ _ o) by done. split; [done|].
      by intros [[=] _].
    + rewrite update_sales_order_absent by done. unfold not_found. cbn [fst].
      destruct (decide (int64 order_id)) as [Hrange|Hrange].
      * by rewrite bool_decide_eq_true_2.
      * rewrite bool_decide_eq_false_2 by done. split; [done|]. by intros [_ ?].
  - intros o e Hk He [c Hcust].
    exists (mkStore (delete e (customers db)) (sales_orders db)).
    exists (mkStore (delete e (customers db))
              (<[order_id := billed clock o]> (sales_orders db))), (billed clock o).
    unfold app.delete_customer, app.put_salesorder, serve_no_content.
    rewrite (delete_customer_present _ _ c) by done.
    rewrite (update_sales_order_present _ _ _ _ o) by done.
    split; [done|]. split; [apply lookup_delete_eq|]. split; [done|].
    split; [done|]. split; [apply lookup_insert_eq|done].
Qed.

Lemma update_sales_order_not_found_iff_witness :
  keyed (customers one_order) ∧
  keyed (sales_orders one_order) ∧
  ((update_sales_order noon 2 acme_order one_order).1 =
      Raise (HTTPException 404 "Sales Order not found")
    ↔ sales_orders one_order !! 2 = None ∧ int64 2) ∧
  ∃ orphaned db' o',
    app.delete_customer 1 one_order = (mkResponse 204 NoContent, orphaned) ∧
    customers orphaned !! 1 = None ∧
    sales_orders orphaned !! 1 = Some order_row ∧
    app.put_salesorder noon 1 acme_order orphaned = (mkResponse 204 NoContent, db') ∧
    sales_orders db' !! 1 = Some o' ∧
    DBSalesOrder.status o' = Some "Billed".
Proof.
  split; [exact one_customer_keyed|]. split; [exact one_order_keyed|].
  split.
  - exact (proj1 (update_sales_order_not_found_iff noon 2 acme_order one_order
                    one_customer_keyed one_order_keyed)).
  - exact (proj2 (update_sales_order_not_found_iff noon 1 acme_order one_order
                    one_customer_keyed one_order_keyed)
             order_row 1 eq_refl eq_refl (ex_intro _ acme_row eq_refl)).
Defined.

(** C10. The read operations, List customers and Get customer by id, never
    modify the store: for every input and every store, the store after the
    operation is the store before it, whether the operation succeeds or
    fails with Not-Found. *)
Theorem reads_keep_store db customer_id :
  (get_customer_collection db).2 = db ∧
  (app.get_customers db).2 = db ∧
  (get_customer_by_id customer_id db).2 = db ∧
  (app.get_customer customer_id db).2 = db.
Proof.
  assert ((get_customer_by_id customer_id db).2 = db) as Hget.
  { rewrite get_customer_by_id_run. by destruct (customers db !! customer_id). }
  split; [reflexivity|]. split; [|split; [done|]].
  - unfold app.get_customers. by rewrite serve_store.
  - unfold app.get_customer. by rewrite serve_store.
Qed.

(** * Further properties of the handlers *)

Lemma one_customer_sound : sound one_customer.
Proof. exact (reachable_sound one_customer one_customer_reachable). Qed.

Lemma one_customer_complete : complete (customers one_customer).
Proof. by apply map_Forall_singleton. Qed.

(** ** Listing a table *)

Lemma table_all_Permutation {R} (tbl : gmap Z R) :
  table_all tbl ≡ₚ (map_to_list tbl).*2.
Proof. unfold table_all. by rewrite merge_sort_Permutation. Qed.

Lemma elem_of_table_all {R} (tbl : gmap Z R) r :
  r ∈ table_all tbl ↔ ∃ k, tbl !! k = Some r.
Proof.
  rewrite table_all_Permutation, list_elem_of_fmap. split.
  - intros [[k r'] [-> Hin%elem_of_map_to_list]]. by exists k.
  - intros [k Hk]. exists (k, r). split; [done|]. by apply elem_of_map_to_list.
Qed.

Lemma length_table_all {R} (tbl : gmap Z R) : length (table_all tbl) = size tbl.
Proof. by rewrite table_all_Permutation, length_fmap, length_map_to_list. Qed.

Lemma complete_table_all tbl :
  complete tbl → forallb CustomerResponse.validates (table_all tbl) = true.
Proof.
  intros Hcomplete. apply forallb_forall. intros r Hin%list_elem_of_In.
  apply elem_of_table_all in Hin as [k Hk]. by apply (Hcomplete k r).
Qed.


(** ** Customer create *)







(** ** Customer list *)

(** X4. When every stored customer passes the response model, List
    answers 200 with exactly the stored customers, by ascending id: a row is
    listed if and only if it is stored, there are as many rows as keys, and
    no two listed rows share an id. *)
Theorem list_customers_exact db :
  keyed (customers db) →
  complete (customers db) →
  ∃ rows ids,
    app.get_customers db = (mkResponse 200 (Json rows), db) ∧
    (∀ r, r ∈ rows ↔ ∃ k, customers db !! k = Some r) ∧
    length rows = size (customers db) ∧
    DBCustomer.id <$> rows = Some <$> ids ∧
    Sorted Z.le ids ∧
    NoDup ids.
Proof.
  intros Hkeyed Hcomplete.
  exists (table_all (customers db)),
    (merge_sort by_key (map_to_list (customers db))).*1.
  unfold app.get_customers, serve.
  rewrite get_customer_collection_run, complete_table_all by done.
  split; [reflexivity|]. split; [apply elem_of_table_all|].
  split; [apply length_table_all|]. split; [|split].
  - unfold table_all. rewrite <- !list_fmap_compose.
    apply Forall_fmap_ext_1, Forall_forall. intros [k r] Hin.
    rewrite merge_sort_Permutation in Hin. apply elem_of_map_to_list in Hin.
    by apply (Hkeyed k r).
  - apply Sorted_fmap with (R1 := by_key); [by intros x y|].
    apply Sorted_merge_sort. intros x y. unfold by_key. lia.
  - rewrite merge_sort_Permutation. apply NoDup_fst_map_to_list.
Qed.

Lemma list_customers_exact_witness :
  keyed (customers one_customer) ∧
  complete (customers one_customer) ∧
  ∃ rows ids,
    app.get_customers one_customer = (mkResponse 200 (Json rows), one_customer) ∧
    (∀ r, r ∈ rows ↔ ∃ k, customers one_customer !! k = Some r) ∧
    length rows = size (customers one_customer) ∧
    DBCustomer.id <$> rows = Some <$> ids ∧
    Sorted Z.le ids ∧
    NoDup ids.
Proof.
  split; [exact one_customer_keyed|]. split; [exact one_customer_complete|].
  exact (list_customers_exact one_customer one_customer_keyed one_customer_complete).
Defined.



(** ** Customer update *)



(** X7. An update of an id that is absent and within the 64-bit range
    answers 404 with the resource's own message and leaves the store as it
    was, for customers and for sales orders alike. *)
Theorem update_absent_not_found clock customer_id order_id customer_update order_update db :
  int64 customer_id →
  int64 order_id →
  customers db !! customer_id = None →
  sales_orders db !! order_id = None →
  app.put_customer clock customer_id customer_update db =
    (mkResponse 404 (Detail "Customer not found"), db) ∧
  app.put_salesorder clock order_id order_update db =
    (mkResponse 404 (Detail "Sales Order not found"), db).
Proof.
  intros Hrc Hro Hc Ho. unfold app.put_customer, app.put_salesorder, serve_no_content.
  rewrite update_customer_absent, update_sales_order_absent by done.
  unfold not_found. by rewrite !bool_decide_eq_true_2.
Qed.

Lemma update_absent_not_found_witness :
  int64 2 ∧
  customers one_order !! 2 = None ∧
  sales_orders one_order !! 2 = None ∧
  app.put_customer noon 2 acme one_order =
    (mkResponse 404 (Detail "Customer not found"), one_order) ∧
  app.put_salesorder noon 2 acme_order one_order =
    (mkResponse 404 (Detail "Sales Order not found"), one_order).
Proof.
  assert (int64 2) as H2 by (unfold int64; lia).
  split; [exact H2|]. split; [reflexivity|]. split; [reflexivity|].
  exact (update_absent_not_found noon 2 2 acme acme_order one_order
           H2 H2 eq_refl eq_refl).
Defined.



(** ** Deletes *)

(** X9. A successful delete removes the one row it names and nothing else,
    and it cannot be repeated: the same delete on the store it leaves answers
    404. (The id is a 64-bit integer, as every id a table holds is.) *)
Theorem delete_removes_one_row db k :
  int64 k →
  keyed (customers db) →
  keyed (sales_orders db) →
  (is_Some (customers db !! k) →
     ∃ db', app.delete_customer k db = (mkResponse 204 NoContent, db') ∧
       (∀ j, j ≠ k → customers db' !! j = customers db !! j) ∧
       app.delete_customer k db' = (mkResponse 404 (Detail "Customer not found"), db')) ∧
  (is_Some (sales_orders db !! k) →
     ∃ db', app.delete_salesorder k db = (mkResponse 204 NoContent, db') ∧
       (∀ j, j ≠ k → sales_orders db' !! j = sales_orders db !! j) ∧
       customers db' = customers db ∧
       app.delete_salesorder k db' =
         (mkResponse 404 (Detail "Sales Order not found"), db')).
Proof.
  intros Hrange Hc Ho.
  assert (∀ detail, not_found k detail = HTTPException 404 detail) as Hnf.
  { intros detail. unfold not_found. by rewrite bool_decide_eq_true_2. }
  split.
  - intros [c Hk]. eexists. unfold app.delete_customer, serve_no_content.
    rewrite (delete_customer_present _ _ c) by done.
    split; [reflexivity|]. cbn [customers]. split.
    + intros j Hj. by rewrite lookup_delete_ne.
    + rewrite delete_customer_absent, Hnf; [done|]. apply lookup_delete_eq.
  - intros [o Hk]. eexists. unfold app.delete_salesorder, serve_no_content.
    rewrite (delete_sales_order_present _ _ o) by done.
    split; [reflexivity|]. cbn [customers sales_orders]. split; [|split; [done|]].
    + intros j Hj. by rewrite lookup_delete_ne.
    + rewrite delete_sales_order_absent, Hnf; [done|]. apply lookup_delete_eq.
Qed.

Lemma delete_removes_one_row_witness :
  int64 1 ∧
  keyed (customers one_order) ∧
  keyed (sales_orders one_order) ∧
  (∃ db', app.delete_customer 1 one_order = (mkResponse 204 NoContent, db') ∧
     (∀ j, j ≠ 1 → customers db' !! j = customers one_order !! j) ∧
     app.delete_customer 1 db' = (mkResponse 404 (Detail "Customer not found"), db')) ∧
  (∃ db', app.delete_salesorder 1 one_order = (mkResponse 204 NoContent, db') ∧
     (∀ j, j ≠ 1 → sales_orders db' !! j = sales_orders one_order !! j) ∧
     customers db' = customers one_order ∧
     app.delete_salesorder 1 db' =
       (mkResponse 404 (Detail "Sales Order not found"), db')).
Proof.
  assert (int64 1) as H1 by (unfold int64; lia).
  split; [exact H1|]. split; [exact one_customer_keyed|]. split; [exact one_order_keyed|].
  destruct (delete_removes_one_row one_order 1 H1 one_customer_keyed one_order_keyed)
    as [Hc Ho].
  split; [exact (Hc (ex_intro _ acme_row eq_refl))
         |exact (Ho (ex_intro _ order_row eq_refl))].
Defined.

(** ** The two tables *)

(** X10. Whatever the store and whether the request succeeds or fails, a
    customer request leaves the sales order table as it was and a sales
    order request leaves the customer table as it was. *)
Theorem requests_keep_the_other_table clock req db :
  match req with
  | CreateCustomer _ | ListCustomers | GetCustomer _
  | UpdateCustomer _ _ | DeleteCustomer _ =>
      sales_orders (handle clock req db) = sales_orders db
  | CreateSalesOrder _ | UpdateSalesOrder _ _ | DeleteSalesOrder _ =>
      customers (handle clock req db) = customers db
  end.
Proof.
  destruct req as [p| |k|k p|k|o|k o|k]; unfold handle;
    unfold app.post_customer, app.get_customers, app.get_customer, app.put_customer,
      app.delete_customer, app.post_salesorder, app.put_salesorder,
      app.delete_salesorder;
    rewrite ?serve_store, ?serve_no_content_store.
  - apply create_customer_orders.
  - by rewrite get_customer_collection_run.
  - rewrite get_customer_by_id_run. by destruct (customers db !! k).
  - apply update_customer_orders.
  - apply delete_customer_orders.
  - by rewrite create_sales_order_store.
  - apply update_sales_order_customers.
  - apply delete_sales_order_customers.
Qed.

(** ** Invariants *)

(** X11. Every request keeps a sound store sound: afterwards each row still
    sits under its own id, each customer still carries the identifier
    derived from its id, and no two customers share an entityId. *)
Theorem requests_keep_store_sound clock req db :
  sound db →
  keyed (customers (handle clock req db)) ∧
  keyed (sales_orders (handle clock req db)) ∧
  (∀ k r, customers (handle clock req db) !! k = Some r →
     DBCustomer.entityId r = Some ("CUST-" +:+ pretty k)) ∧
  (∀ j k r r',
     customers (handle clock req db) !! j = Some r →
     customers (handle clock req db) !! k = Some r' →
     DBCustomer.entityId r = DBCustomer.entityId r' → j = k).
Proof.
  intros Hsound. destruct (handle_sound clock req db Hsound) as [Hc Hi Ho].
  split; [done|]. split; [done|]. split; [exact Hi|].
  intros j k r r' Hj Hk. rewrite (Hi j r Hj), (Hi k r' Hk).
  intros [= Heq]. exact (inj pretty _ _ Heq).
Qed.

Lemma requests_keep_store_sound_witness :
  sound one_customer ∧
  keyed (customers (handle noon (CreateCustomer acme) one_customer)) ∧
  keyed (sales_orders (handle noon (CreateCustomer acme) one_customer)) ∧
  (∀ k r, customers (handle noon (CreateCustomer acme) one_customer) !! k = Some r →
     DBCustomer.entityId r = Some ("CUST-" +:+ pretty k)) ∧
  (∀ j k r r',
     customers (handle noon (CreateCustomer acme) one_customer) !! j = Some r →
     customers (handle noon (CreateCustomer acme) one_customer) !! k = Some r' →
     DBCustomer.entityId r = DBCustomer.entityId r' → j = k).
Proof.
  split; [exact one_customer_sound|].
  exact (requests_keep_store_sound noon (CreateCustomer acme) one_customer
           one_customer_sound).
Defined.

(** X12. Starting from a fresh database no sequence of requests ever stores
    a sales order; so every sales order update and delete the service is
    sent, for an id within the 64-bit range, answers 404. *)
Theorem no_sales_order_is_ever_stored clock order_id order_update db :
  reachable db →
  int64 order_id →
  sales_orders db = ∅ ∧
  app.put_salesorder clock order_id order_update db =
    (mkResponse 404 (Detail "Sales Order not found"), db) ∧
  app.delete_salesorder order_id db =
    (mkResponse 404 (Detail "Sales Order not found"), db).
Proof.
  intros Hempty%reachable_no_orders Hrange. split; [done|].
  unfold app.put_salesorder, app.delete_salesorder, serve_no_content.
  rewrite update_sales_order_absent, delete_sales_order_absent by by rewrite Hempty.
  unfold not_found. by rewrite !bool_decide_eq_true_2.
Qed.

Lemma no_sales_order_is_ever_stored_witness :
  reachable one_customer ∧
  int64 1 ∧
  sales_orders one_customer = ∅ ∧
  app.put_salesorder noon 1 acme_order one_customer =
    (mkResponse 404 (Detail "Sales Order not found"), one_customer) ∧
  app.delete_salesorder 1 one_customer =
    (mkResponse 404 (Detail "Sales Order not found"), one_customer).
Proof.
  assert (int64 1) as H1 by (unfold int64; lia).
  split; [exact one_customer_reachable|]. split; [exact H1|].
  exact (no_sales_order_is_ever_stored noon 1 acme_order one_customer
           one_customer_reachable H1).
Defined.

(** ** Sales order create *)

(** X13. On every store a sales order create request writes nothing and
    never answers 201: it answers 500 when the customer it names exists, 400,
    naming the customer id, when that customer does not exist and the id is
    within the 64-bit range, and 500 when the id is outside that range. *)
Theorem post_salesorder_never_writes clock order db :
  app.post_salesorder clock order db =
    (if bool_decide (is_Some (customers db !! SalesOrderBase.entity order))
     then mkResponse 500 (Detail "Internal Server Error")
     else if bool_decide (int64 (SalesOrderBase.entity order))
     then mkResponse 400
            (Detail ("Customer ID " +:+ pretty (SalesOrderBase.entity order)
                       +:+ " not found. Cannot create Sales Order."))
     else mkResponse 500 (Detail "Internal Server Error"),
     db).
Proof.
  unfold app.post_salesorder, serve.
  destruct (customers db !! SalesOrderBase.entity order) as [c|] eqn:Hk.
  - rewrite (create_sales_order_known_customer _ _ _ c) by done.
    by rewrite bool_decide_eq_true_2.
  - rewrite create_sales_order_unknown_customer by done.
    rewrite (bool_decide_eq_false_2 (is_Some None)) by by intros [? [=]].
    by destruct (bool_decide (int64 _)).
Qed.

(** X14. The customer check looks at the store at the moment of the call:
    once a customer is deleted, a sales order create request that names it
    answers 400. (The id is a 64-bit integer, as every id a table holds
    is.) *)
Theorem order_for_deleted_customer_rejected clock order db c :
  int64 (SalesOrderBase.entity order) →
  keyed (customers db) →
  customers db !! SalesOrderBase.entity order = Some c →
  ∃ db',
    app.delete_customer (SalesOrderBase.entity order) db =
      (mkResponse 204 NoContent, db') ∧
    app.post_salesorder clock order db' =
      (mkResponse 400
         (Detail ("Customer ID " +:+ pretty (SalesOrderBase.entity order)
                    +:+ " not found. Cannot create Sales Order.")),
       db').
Proof.
  intros Hrange Hkeyed Hk. eexists. unfold app.delete_customer, serve_no_content.
  rewrite (delete_customer_present _ _ c) by done. split; [reflexivity|].
  unfold app.post_salesorder, serve.
  rewrite create_sales_order_unknown_customer by apply lookup_delete_eq.
  by rewrite bool_decide_eq_true_2.
Qed.

Lemma order_for_deleted_customer_rejected_witness :
  int64 (SalesOrderBase.entity acme_order) ∧
  keyed (customers one_customer) ∧
  customers one_customer !! SalesOrderBase.entity acme_order = Some acme_row ∧
  ∃ db',
    app.delete_customer 1 one_customer = (mkResponse 204 NoContent, db') ∧
    app.post_salesorder noon acme_order db' =
      (mkResponse 400 (Detail "Customer ID 1 not found. Cannot create Sales Order."),
       db').
Proof.
  assert (int64 (SalesOrderBase.entity acme_order)) as H1
    by (change (SalesOrderBase.entity acme_order) with 1; unfold int64; lia).
  split; [exact H1|]. split; [exact one_customer_keyed|]. split; [reflexivity|].
  exact (order_for_deleted_customer_rejected noon acme_order one_customer acme_row
           H1 one_customer_keyed eq_refl).
Defined.

(** ** The two writes of a customer create *)

Lemma unique_taken_true {R} `{Model R} (tbl : gmap Z R) k v j r :
  tbl !! j = Some r → j ≠ k → unique_col r = v → is_Some v →
  unique_taken tbl k v = true.
Proof.
  intros Hj Hne Hv Hsome. unfold unique_taken. apply bool_decide_eq_true.
  split; [done|]. by exists j, r.
Qed.

(** A create call is an insert of the pending object followed by an update
    that patches the derived identifier. *)
Lemma create_customer_two_writes clock customer db :
  create_customer clock customer db =
    match table_insert (customers db) (pending clock customer) with
    | Ok (row, tbl) =>
        let patched :=
          DBCustomer.set_entityId (Some ("CUST-" +:+ py_str_int (DBCustomer.id row))) row in
        match table_update tbl patched with
        | Ok tbl' => (Ok patched, mkStore tbl' (sales_orders db))
        | Raise e => (Raise e, mkStore tbl (sales_orders db))
        end
    | Raise e => (Raise e, db)
    end.
Proof.
  unfold_handlers.
  change (call_kwargs _ _) with
    (Ok (CustomerBase.model_dump customer ++
         [("dateCreated", PyStr (strftime clock timestamp_format));
          ("entityId", PyStr "")])%list).
  cbv beta iota.
  change (DBCustomer.init _) with (Ok (pending clock customer)).
  cbv beta iota.
  destruct (table_insert (customers db) (pending clock customer)) as [[row tbl]|e];
    [|done].
  cbv beta iota zeta. cbn [customers sales_orders].
  by destruct (table_update tbl _).
Qed.

(** X15. While some customer row holds an empty entityId, as a create call
    cut short between its two writes leaves it, every create request fails:
    the insert violates the unique index, the answer is 500 and nothing is
    written. *)
Theorem create_customer_blocked clock customer db j r :
  customers db !! j = Some r →
  DBCustomer.entityId r = Some "" →
  app.post_customer clock customer db =
    (mkResponse 500 (Detail "Internal Server Error"), db).
Proof.
  intros Hj Hempty. unfold app.post_customer, serve.
  rewrite create_customer_two_writes. unfold table_insert.
  cbn [pk DBCustomer_model pending DBCustomer.id default].
  rewrite bool_decide_eq_false_2
    by (rewrite next_rowid_fresh; by intros [? [=]]).
  rewrite (unique_taken_true _ _ _ j r); [done|done| |done|by eexists].
  intros ->. by rewrite next_rowid_fresh in Hj.
Qed.

Lemma create_customer_blocked_witness :
  customers interrupted !! 1 = Some (DBCustomer.set_entityId (Some "") acme_row) ∧
  DBCustomer.entityId (DBCustomer.set_entityId (Some "") acme_row) = Some "" ∧
  app.post_customer noon acme interrupted =
    (mkResponse 500 (Detail "Internal Server Error"), interrupted).
Proof.
  split; [reflexivity|]. split; [reflexivity|].
  exact (create_customer_blocked noon acme interrupted 1 _ eq_refl eq_refl).
Defined.




(** ** Status codes *)



(** ** The customer schema *)

(** X18. Validation and [model_dump(exclude_unset=True)] are inverse on the
    schema's fields: the dump of a validated payload holds a pair exactly
    when the key is one of companyName, email and status and the body
    holds that value under it. *)
Theorem model_validate_round_trip body p :
  CustomerBase.model_validate body = Some p →
  ∀ f v,
    (f, v) ∈ CustomerBase.model_dump_exclude_unset p ↔
    f ∈ ["companyName"; "email"; "status"] ∧ body !! f = Some v.
Proof.
  unfold CustomerBase.model_validate. intros Hp f v.
  destruct (body !! "companyName") as [[| | |name]|] eqn:Hname; try done.
  destruct (body !! "email") as [[| | |mail]|] eqn:Hmail; try done.
  destruct (body !! "status") as [[| | |st]|] eqn:Hst; simplify_eq/=.
  - change (CustomerBase.model_dump_exclude_unset _)
      with [("companyName", PyStr name); ("email", PyStr mail); ("status", PyStr st)].
    rewrite !elem_of_cons, !elem_of_nil. split.
    + intros [[= -> ->]|[[= -> ->]|[[= -> ->]|[]]]]; naive_solver.
    + intros [[->|[->|[->|[]]]] Hf]; simplify_eq; naive_solver.
  - change (CustomerBase.model_dump_exclude_unset _)
      with [("companyName", PyStr name); ("email", PyStr mail)].
    rewrite !elem_of_cons, !elem_of_nil. split.
    + intros [[= -> ->]|[[= -> ->]|[]]]; naive_solver.
    + intros [[->|[->|[->|[]]]] Hf]; simplify_eq; naive_solver.
Qed.

Lemma model_validate_round_trip_witness :
  CustomerBase.model_validate acme_body = Some acme_update ∧
  ∀ f v,
    (f, v) ∈ CustomerBase.model_dump_exclude_unset acme_update ↔
    f ∈ ["companyName"; "email"; "status"] ∧ acme_body !! f = Some v.
Proof.
  split; [reflexivity|].
  exact (model_validate_round_trip acme_body acme_update eq_refl).
Defined.

(** X19. A key that is not a field of the schema is ignored: adding it to a
    body, or changing it, does not change what validation returns. *)
Theorem model_validate_ignores_other_keys body key value :
  key ∉ ["companyName"; "email"; "status"] →
  CustomerBase.model_validate (<[key := value]> body) = CustomerBase.model_validate body.
Proof.
  rewrite !not_elem_of_cons. intros (Hn & Hm & Hs & _).
  unfold CustomerBase.model_validate. by rewrite !lookup_insert_ne.
Qed.

Lemma model_validate_ignores_other_keys_witness :
  ("entityId" ∉ ["companyName"; "email"; "status"]) ∧
  CustomerBase.model_validate (<["entityId" := PyStr "CUST-9"]> acme_body) =
    CustomerBase.model_validate acme_body.
Proof.
  assert ("entityId" ∉ ["companyName"; "email"; "status"]) as Hkey.
  { rewrite !not_elem_of_cons. repeat split; try discriminate. apply not_elem_of_nil. }
  split; [exact Hkey|].
  exact (model_validate_ignores_other_keys acme_body "entityId" (PyStr "CUST-9") Hkey).
Defined.



(** ** Sales order update *)

(** X21. A sales order update does not depend on what an earlier update
    left: two updates of the same order leave the store the later one alone
    would have left, with status "Billed" and the later timestamp. *)
Theorem update_sales_order_repeated clock1 clock2 order_id u1 u2 db o :
  keyed (sales_orders db) →
  sales_orders db !! order_id = Some o →
  (app.put_salesorder clock2 order_id u2
     (app.put_salesorder clock1 order_id u1 db).2).2
  = (app.put_salesorder clock2 order_id u2 db).2.
Proof.
  intros Hkeyed Hk. unfold app.put_salesorder. rewrite !serve_no_content_store.
  rewrite (update_sales_order_present clock1 _ _ _ o) by done. cbn [snd].
  rewrite (update_sales_order_present clock2 _ _ _ (billed clock1 o)); last first.
  { apply lookup_insert_eq. }
  { cbn [sales_orders]. apply map_Forall_insert_2; [|done]. by apply (Hkeyed order_id o). }
  rewrite (update_sales_order_present clock2 _ _ _ o) by done.
  cbn [snd customers sales_orders]. by rewrite insert_insert_eq.
Qed.

Lemma update_sales_order_repeated_witness :
  keyed (sales_orders one_order) ∧
  sales_orders one_order !! 1 = Some order_row ∧
  (app.put_salesorder noon 1 acme_order
     (app.put_salesorder noon 1 acme_order one_order).2).2
  = (app.put_salesorder noon 1 acme_order one_order).2.
Proof.
  split; [exact one_order_keyed|]. split; [reflexivity|].
  exact (update_sales_order_repeated noon noon 1 acme_order acme_order one_order
           order_row one_order_keyed eq_refl).
Defined.
